(** * bettercap [modules/http_server.go]: the [http.server] module

    A shallow embedding of the module's lifecycle code ([NewHttpServer],
    [isTLS], [Configure], [Start], [Stop] and the request closure installed
    by [Configure]) as state-passing functions over an explicit world, and
    the properties of its specification proved or refuted on it.

    The packages the file imports but does not define ([session], [tls],
    [islazy/fs], [islazy/tui], [net/http]) appear as the fields of one
    interface class, [Collaborators]; every result below holds for every
    implementation of that interface. *)

From Stdlib Require Import String Ascii List ZArith Bool Lia DecimalString.
Import ListNotations.
Open Scope string_scope.

Set Implicit Arguments.

(** ** Values shared with the collaborators *)

(** Go [error] values.  The two sentinels the file compares against or
    returns are constructors; every other error is an [Errorf] message. *)
Inductive error : Type :=
| ErrAlreadyStarted            (* session.ErrAlreadyStarted *)
| ErrServerClosed              (* http.ErrServerClosed *)
| Errorf (msg : string).

Definition error_eqb (a b : error) : bool :=
  match a, b with
  | ErrAlreadyStarted, ErrAlreadyStarted => true
  | ErrServerClosed, ErrServerClosed => true
  | Errorf x, Errorf y => String.eqb x y
  | _, _ => false
  end.

(** How a Go method body ends: it falls through with a value, executes
    [return err] with a non-nil error, or panics. *)
Inductive res (A : Type) : Type :=
| Ok (a : A)
| Err (e : error)
| Panic (e : error).

Arguments Err {A} e.
Arguments Panic {A} e.

(** [http.Request], the four fields the access log reads. *)
Record Request : Type := mkRequest {
  RemoteAddr : string;
  Method : string;
  Host : string;
  URL_Path : string
}.

(** An [http.ResponseWriter] is an opaque token handed on unchanged. *)
Definition ResponseWriter : Type := nat.

(** The handler values [Configure] builds: [http.FileServer(http.Dir(path))]
    and the logging closure of lines 107-110, which captures [fileServer]. *)
Inductive Handler : Type :=
| FileServer (dir : string)
| HandlerFunc (fileServer : Handler).

(** [http.ServeMux]: the registered patterns, in registration order. *)
Record ServeMux : Type := mkServeMux {
  routes : list (string * Handler)
}.

Definition NewServeMux : ServeMux := mkServeMux [].

Definition HandleFunc (pattern : string) (h : Handler) (router : ServeMux) : ServeMux :=
  mkServeMux (routes router ++ [(pattern, h)]).

(** [http.Server]: the two fields the module writes, and [obj], the identity
    of the allocated object (the address behind the [*http.Server]). *)
Record Server : Type := mkServer {
  obj : nat;
  Handler_ : option ServeMux;
  Addr : string
}.

(** [context.Context] as built by [context.WithTimeout]; durations are
    nanoseconds as in [time.Duration]. *)
Inductive Context : Type :=
| Background
| WithTimeout (parent : Context) (timeout : Z).

Definition Second : Z := 1000000000.

(** [session.ModuleParam], as the two constructor functions called by
    [NewHttpServer] are applied. *)
Inductive ModuleParam : Type :=
| NewStringParameter (name def validator desc : string)
| NewIntParameter (name def desc : string).

(** What a module handler or [SetRunning] callback runs. *)
Inductive callback : Type :=
| StartWorker                  (* the closure of lines 166-178 *)
| StopCallback.                (* the closure of lines 182-186 *)

Inductive action : Type := DoStart | DoStop.

Record ModuleHandler : Type := mkHandler {
  hName : string;
  hExpression : string;
  hDescription : string;
  hExec : action
}.

Definition NewModuleHandler (name expr desc : string) (exec : action) : ModuleHandler :=
  mkHandler name expr desc exec.

(** ** The collaborators' interface *)

Class Collaborators : Type := {
  (* session: the parameter table of a module *)
  Params : Type;
  NoParams : Params;
  AddParam_ : ModuleParam -> Params -> Params;
  StringParam_ : string -> Params -> option error * string;
  IntParam_ : string -> Params -> option error * Z;
  ParamIfaceAddress : string;
  IPv4Validator : string;
  (* Modelled from the spec: what [SetRunning(false, _)] answers on a module
     that is not running is left open (section 9: an error or a silent
     success); [None] is the silent success. *)
  StopWhileIdle : option error;
  (* islazy/fs *)
  Disk : Type;
  Expand_ : string -> string * option error;
  Exists_ : string -> Disk -> bool;
  (* tls *)
  CertConfig : Type;
  DefaultLegitConfig : CertConfig;
  CertConfigToModule : string -> Params -> CertConfig -> Params;
  CertConfigFromModule_ : string -> Params -> option error * CertConfig;
  Generate_ : CertConfig -> string -> string -> Disk -> option error * Disk;
  (* islazy/tui *)
  Green : string -> string;
  Bold : string -> string;
  (* net/http: the value each blocking call eventually returns *)
  ListenAndServe_ : Server -> option error;
  ListenAndServeTLS_ : Server -> string -> string -> Disk -> option error;
  Shutdown_ : Server -> Context -> option error
}.

Section HttpServerModule.

Context {X : Collaborators}.

(** ** Data *)

(** [session.SessionModule], embedded in [HttpServer]. *)
Record SessionModule : Type := mkSessionModule {
  Name_ : string;
  Started : bool;
  params : Params;
  handlers : list ModuleHandler
}.

Record HttpServer : Type := mkHttpServer {
  module : SessionModule;
  server : Server;
  certFile : string;
  keyFile : string
}.

Inductive level : Type := Debug | Info.

Inductive logarg : Type :=
| AStr (s : string)
| ACfg (cfg : CertConfig).

(** Everything the module does to the outside, in order of occurrence. *)
Inductive event : Type :=
| EvLog (lvl : level) (format : string) (args : list logarg)
| EvGenerate (cfg : CertConfig) (cert key : string)
| EvListenAndServe (srv : Server)
| EvListenAndServeTLS (srv : Server) (cert key : string)
| EvShutdown (srv : Server) (ctx : Context)
| EvCancel (ctx : Context)
| EvServeHTTP (h : Handler) (w : ResponseWriter) (r : Request).

Record World : Type := mkWorld {
  httpd : HttpServer;
  disk : Disk;
  trace : list event;
  goroutines : list callback;     (* started with [go], not yet run *)
  objects : nat                   (* how many [http.Server] were allocated *)
}.

(** Field updates. *)
Definition with_httpd (h : HttpServer) (w : World) : World :=
  mkWorld h (disk w) (trace w) (goroutines w) (objects w).

Definition with_disk (d : Disk) (w : World) : World :=
  mkWorld (httpd w) d (trace w) (goroutines w) (objects w).

Definition with_Started (b : bool) (w : World) : World :=
  let h := httpd w in
  let m := module h in
  with_httpd (mkHttpServer (mkSessionModule (Name_ m) b (params m) (handlers m))
                           (server h) (certFile h) (keyFile h)) w.

Definition with_Handler (r : ServeMux) (w : World) : World :=
  let h := httpd w in
  let s := server h in
  with_httpd (mkHttpServer (module h) (mkServer (obj s) (Some r) (Addr s))
                           (certFile h) (keyFile h)) w.

Definition with_Addr (a : string) (w : World) : World :=
  let h := httpd w in
  let s := server h in
  with_httpd (mkHttpServer (module h) (mkServer (obj s) (Handler_ s) a)
                           (certFile h) (keyFile h)) w.

Definition with_certFile (c : string) (w : World) : World :=
  let h := httpd w in
  with_httpd (mkHttpServer (module h) (server h) c (keyFile h)) w.

Definition with_keyFile (k : string) (w : World) : World :=
  let h := httpd w in
  with_httpd (mkHttpServer (module h) (server h) (certFile h) k) w.

(** ** The effect monad *)

Definition M (A : Type) : Type := World -> res A * World.

Definition ret {A} (a : A) : M A := fun w => (Ok a, w).

Definition bind {A B} (m : M A) (k : A -> M B) : M B := fun w =>
  match m w with
  | (Ok a, w1) => k a w1
  | (Err e, w1) => (Err e, w1)
  | (Panic e, w1) => (Panic e, w1)
  end.

Definition fail {A} (e : error) : M A := fun w => (Err e, w).
Definition panic {A} (e : error) : M A := fun w => (Panic e, w).
Definition reads {A} (f : World -> A) : M A := fun w => (Ok (f w), w).
Definition writes (f : World -> World) : M unit := fun w => (Ok tt, f w).

Definition emit (e : event) : M unit :=
  writes (fun w => mkWorld (httpd w) (disk w) (trace w ++ [e]) (goroutines w) (objects w)).

(** [defer d] around [body]: [d] runs when [body] is left, however it is left. *)
Definition defer {A} (d : M unit) (body : M A) : M A := fun w =>
  let (r, w1) := body w in
  (r, snd (d w1)).

(** [if err != nil { return err }] on a Go [(error, value)] pair. *)
Definition check {A} (p : option error * A) : M A :=
  match p with
  | (Some e, _) => fail e
  | (None, v) => ret v
  end.

Declare Scope go_scope.
Local Notation "x <- m ;; k" := (bind m (fun x => k))
  (at level 61, m at next level, right associativity) : go_scope.
Local Notation "m ;; k" := (bind m (fun _ => k))
  (at level 61, right associativity) : go_scope.
Local Open Scope go_scope.

(** ** Library calls made by the file *)

(** [strings.Split(s, sep)] for a one-byte separator, which is how line 108
    calls it: the pieces of [s] between the occurrences of [sep]. *)
Fixpoint Split (s : string) (sep : ascii) : list string :=
  match s with
  | EmptyString => [EmptyString]
  | String c rest =>
      if Ascii.eqb c sep then EmptyString :: Split rest sep
      else match Split rest sep with
           | piece :: pieces => String c piece :: pieces
           | [] => [String c EmptyString]
           end
  end.

(** [xs[i]]: an index out of range is a run-time panic. *)
Definition index {A} (xs : list A) (i : nat) : M A :=
  match nth_error xs i with
  | Some x => ret x
  | None => panic (Errorf "index out of range")
  end.

(** [fmt.Sprintf("%s:%d", address, port)]. *)
Definition itoa (n : Z) : string := NilZero.string_of_int (Z.to_int n).

Definition Sprintf_addr (address : string) (port : Z) : string :=
  address ++ ":" ++ itoa port.

Definition log (lvl : level) (format : string) (args : list logarg) : M unit :=
  emit (EvLog lvl format args).

(** Modelled from the spec: [session.SessionModule.Running], absent from the
    sources; it reports the module's running flag. *)
Definition Running : M bool := reads (fun w => Started (module (httpd w))).

Definition StringParam (name : string) : M string :=
  p <- reads (fun w => params (module (httpd w))) ;;
  check (StringParam_ name p).

Definition IntParam (name : string) : M Z :=
  p <- reads (fun w => params (module (httpd w))) ;;
  check (IntParam_ name p).

(** [v, err = fs.Expand(v)] followed by [return err] when [err != nil]. *)
Definition Expand (path : string) : M string :=
  match Expand_ path with
  | (_, Some e) => fail e
  | (v, None) => ret v
  end.

Definition Exists (path : string) : M bool :=
  reads (fun w => Exists_ path (disk w)).

Definition CertConfigFromModule (prefix : string) : M CertConfig :=
  p <- reads (fun w => params (module (httpd w))) ;;
  check (CertConfigFromModule_ prefix p).

(** [tls.Generate(cfg, certFile, keyFile)]: the call is recorded, the disk
    becomes what the primitive leaves, and a non-nil result is returned. *)
Definition Generate (cfg : CertConfig) (cert key : string) : M unit :=
  emit (EvGenerate cfg cert key) ;;
  d <- reads disk ;;
  let (err, d') := Generate_ cfg cert key d in
  writes (with_disk d') ;;
  check (err, tt).

Definition nonempty (s : string) : bool := negb (String.eqb s "").

(** ** The module *)

(** Lines 84-86. *)
Definition isTLS (h : HttpServer) : bool :=
  nonempty (certFile h) && nonempty (keyFile h).

(** The closure of lines 107-110, with [fileServer] captured. *)
Definition access_log (fileServer : Handler) (w : ResponseWriter) (r : Request) : M unit :=
  client <- index (Split (RemoteAddr r) ":") 0 ;;
  log Info "(%s) %s %s %s%s"
      [AStr (Green "httpd"); AStr (Bold client); AStr (Method r);
       AStr (Host r); AStr (URL_Path r)] ;;
  emit (EvServeHTTP fileServer w r).

(** What serving a request through a handler value does: the closure runs
    [access_log]; the file server itself is the library's. *)
Definition ServeHTTP (h : Handler) (w : ResponseWriter) (r : Request) : M unit :=
  match h with
  | HandlerFunc fileServer => access_log fileServer w r
  | FileServer _ => emit (EvServeHTTP h w r)
  end.

(** Lines 136-153: the certificate provisioning block of [Configure]. *)
Definition provision (certFile keyFile : string) : M unit :=
  if nonempty certFile && nonempty keyFile then
    certThere <- Exists certFile ;;
    missing <- (if negb certThere then ret true
                else keyThere <- Exists keyFile ;; ret (negb keyThere)) ;;
    if (missing : bool) then
      cfg <- CertConfigFromModule "http.server" ;;
      log Debug "%+v" [ACfg cfg] ;;
      log Info "Generating server TLS key to %s" [AStr keyFile] ;;
      log Info "Generating server TLS certificate to %s" [AStr certFile] ;;
      Generate cfg certFile keyFile
    else
      log Info "loading server TLS key from %s" [AStr keyFile] ;;
      log Info "loading server TLS certificate from %s" [AStr certFile]
  else ret tt.

(** Lines 104-110: the router [Configure] installs for a root [path]. *)
Definition router_for (path : string) : ServeMux :=
  let router := NewServeMux in
  let fileServer := FileServer path in
  HandleFunc "/" (HandlerFunc fileServer) router.

(** Lines 88-159. *)
Definition Configure : M unit :=
  running <- Running ;;
  if running then fail ErrAlreadyStarted else
  path <- StringParam "http.server.path" ;;
  writes (with_Handler (router_for path)) ;;
  address <- StringParam "http.server.address" ;;
  port <- IntParam "http.server.port" ;;
  writes (with_Addr (Sprintf_addr address port)) ;;
  certFile <- StringParam "http.server.certificate" ;;
  certFile <- Expand certFile ;;
  keyFile <- StringParam "http.server.key" ;;
  keyFile <- Expand keyFile ;;
  provision certFile keyFile ;;
  writes (with_certFile certFile) ;;
  writes (with_keyFile keyFile) ;;
  ret tt.

(** The closure of lines 166-178, run on its own goroutine. *)
Definition start_worker : M unit :=
  h <- reads httpd ;;
  err <- (if isTLS h then
            log Info "HTTPS server starting on https://%s" [AStr (Addr (server h))] ;;
            emit (EvListenAndServeTLS (server h) (certFile h) (keyFile h)) ;;
            d <- reads disk ;;
            ret (ListenAndServeTLS_ (server h) (certFile h) (keyFile h) d)
          else
            log Info "HTTP server starting on http://%s" [AStr (Addr (server h))] ;;
            emit (EvListenAndServe (server h)) ;;
            ret (ListenAndServe_ (server h))) ;;
  match err with
  | Some e => if negb (error_eqb e ErrServerClosed) then panic e else ret tt
  | None => ret tt
  end.

(** The closure of lines 182-186.  The value of [Shutdown] is dropped. *)
Definition stop_callback : M unit :=
  let ctx := WithTimeout Background (60 * Second) in
  defer (emit (EvCancel ctx))
    (srv <- reads (fun w => server (httpd w)) ;;
     emit (EvShutdown srv ctx) ;;
     let _ := Shutdown_ srv ctx in
     ret tt).

Definition run_callback (cb : callback) : M unit :=
  match cb with
  | StartWorker => start_worker
  | StopCallback => stop_callback
  end.

Definition spawn (cb : callback) : M unit :=
  writes (fun w => mkWorld (httpd w) (disk w) (trace w) (goroutines w ++ [cb]) (objects w)).

(** Modelled from the spec: [session.SessionModule.SetRunning], absent from
    the sources.  A request for the state the module is already in is
    rejected without effect (for a start with the already-started error, for
    a stop with [StopWhileIdle]); otherwise the flag flips first, then a
    start hands its callback to a goroutine of its own and a stop runs its
    callback before returning. *)
Definition SetRunning (running : bool) (cb : callback) : M unit :=
  current <- Running ;;
  if Bool.eqb running current then
    if current then fail ErrAlreadyStarted
    else check (StopWhileIdle, tt)
  else
    writes (with_Started running) ;;
    if running then spawn cb else run_callback cb.

(** Lines 161-179. *)
Definition Start : M unit :=
  Configure ;;
  SetRunning true StartWorker.

(** Lines 181-187. *)
Definition Stop : M unit :=
  SetRunning false StopCallback.

(** Lines 25-70: the module object and the one [&http.Server{}] it owns,
    allocated as object number [objects]. *)
Definition NewHttpServer (d : Disk) (objects : nat) : World :=
  let p := NoParams in
  let p := AddParam_ (NewStringParameter "http.server.path" "." "" "Server folder.") p in
  let p := AddParam_ (NewStringParameter "http.server.address" ParamIfaceAddress IPv4Validator
                        "Address to bind the http server to.") p in
  let p := AddParam_ (NewIntParameter "http.server.port" "80"
                        "Port to bind the http server to.") p in
  let p := AddParam_ (NewStringParameter "http.server.certificate" "" ""
                        "TLS certificate file, if not empty will configure this as a HTTPS server (will be auto generated if filled but not existing).") p in
  let p := AddParam_ (NewStringParameter "http.server.key" "" ""
                        "TLS key file, if not empty will configure this as a HTTPS server (will be auto generated if filled but not existing).") p in
  let p := CertConfigToModule "http.server" p DefaultLegitConfig in
  let hs := [NewModuleHandler "http.server on" "" "Start httpd server." DoStart;
             NewModuleHandler "http.server off" "" "Stop httpd server." DoStop] in
  mkWorld (mkHttpServer (mkSessionModule "http.server" false p hs)
                        (mkServer objects None "") "" "")
          d [] [] (S objects).

(** A module handler's [Exec]. *)
Definition exec (a : action) : M unit :=
  match a with
  | DoStart => Start
  | DoStop => Stop
  end.

(** ** Runs: a caller's commands interleaved with the scheduler *)

Inductive step : Type :=
| Command (a : action)         (* the operator issues [http.server on/off] *)
| Schedule.                    (* the oldest pending goroutine runs *)

(** One step.  A returned error goes back to the operator and the run goes
    on; a panic ends the process. *)
Definition run_step (s : step) (w : World) : res unit * World :=
  match s with
  | Command a => exec a w
  | Schedule =>
      match goroutines w with
      | [] => (Ok tt, w)
      | cb :: rest =>
          run_callback cb (mkWorld (httpd w) (disk w) (trace w) rest (objects w))
      end
  end.

Fixpoint run (steps : list step) (w : World) : World :=
  match steps with
  | [] => w
  | s :: rest =>
      match run_step s w with
      | (Panic _, w1) => w1
      | (_, w1) => run rest w1
      end
  end.

(** ** Vocabulary of the specification *)

(** The resolution of the five parameters, read and expanded in the order
    [Configure] reads them (lines 100, 114, 118, 124-134), with none of
    [Configure]'s writes: its failure is a bad-parameter failure, its
    success yields the resolved path, address, port and the two resolved
    certificate paths. *)
Definition resolve : M (string * string * Z * string * string) :=
  path <- StringParam "http.server.path" ;;
  address <- StringParam "http.server.address" ;;
  port <- IntParam "http.server.port" ;;
  certFile <- StringParam "http.server.certificate" ;;
  certFile <- Expand certFile ;;
  keyFile <- StringParam "http.server.key" ;;
  keyFile <- Expand keyFile ;;
  ret (path, address, port, certFile, keyFile).

(** The key/certificate generations a trace records, oldest first. *)
Fixpoint generations (t : list event) : list (CertConfig * string * string) :=
  match t with
  | [] => []
  | EvGenerate cfg cert key :: rest => (cfg, cert, key) :: generations rest
  | _ :: rest => generations rest
  end.

(** The servers on which a trace records a serve call, oldest first. *)
Fixpoint served (t : list event) : list nat :=
  match t with
  | [] => []
  | EvListenAndServe srv :: rest => obj srv :: served rest
  | EvListenAndServeTLS srv _ _ :: rest => obj srv :: served rest
  | _ :: rest => served rest
  end.

(** The part of an address before its first colon. *)
Fixpoint before_colon (s : string) : string :=
  match s with
  | EmptyString => EmptyString
  | String c rest => if Ascii.eqb c ":" then EmptyString else String c (before_colon rest)
  end.

(** The world once [Configure] has installed the router and the address. *)
Definition bound (path address : string) (port : Z) (w : World) : World :=
  with_Addr (Sprintf_addr address port) (with_Handler (router_for path) w).



(** Lines 72-82: the three descriptive methods. *)
Definition Name : string := "http.server".

Definition Description : string :=
  "A simple HTTP server, to be used to serve files and scripts across the network.".

Definition Author : string := "Simone Margaritelli <evilsocket@protonmail.com>".

(** A string without a colon. *)
Fixpoint no_colon (s : string) : bool :=
  match s with
  | EmptyString => true
  | String c rest => negb (Ascii.eqb c ":") && no_colon rest
  end.

(** The events [Configure] may record: log lines and generations. *)
Definition log_or_generate (ev : event) : bool :=
  match ev with
  | EvLog _ _ _ => true
  | EvGenerate _ _ _ => true
  | _ => false
  end.

(** The server a serve call was made on, if the event is a serve call. *)
Definition serving (ev : event) : option Server :=
  match ev with
  | EvListenAndServe srv => Some srv
  | EvListenAndServeTLS srv _ _ => Some srv
  | _ => None
  end.

(** A server whose handler is the router [Configure] builds for some root. *)
Definition routed (srv : Server) : Prop :=
  exists path, Handler_ srv = Some (router_for path).

(** Every serve call of a trace was made on a routed server. *)
Definition served_routed (t : list event) : Prop :=
  Forall (fun ev => forall srv, serving ev = Some srv -> routed srv) t.

(** A goroutine is pending only once the server is routed, the server's
    handler is unset or a router of [Configure], and every serve call so
    far was made on a routed server. *)
Definition handler_installed (w : World) : Prop :=
  (goroutines w <> [] -> routed (server (httpd w))) /\
  (Handler_ (server (httpd w)) = None \/ routed (server (httpd w))) /\
  served_routed (trace w).

End HttpServerModule.

(** ** A concrete set of collaborators

    Used to run the module on explicit inputs.  The parameter table is an
    association list read front to back; the disk is the list of the paths
    that exist; a certificate profile is its key size. *)
Module Demo.

Definition table : Type := list (string * string).

Fixpoint lookup (name : string) (p : table) : option string :=
  match p with
  | [] => None
  | (k, v) :: rest => if String.eqb k name then Some v else lookup name rest
  end.

Definition add_param (mp : ModuleParam) (p : table) : table :=
  match mp with
  | NewStringParameter name def _ _ => (p ++ [(name, def)])%list
  | NewIntParameter name def _ => (p ++ [(name, def)])%list
  end.

Definition string_param (name : string) (p : table) : option error * string :=
  match lookup name p with
  | Some v => (None, v)
  | None => (Some (Errorf ("Parameter " ++ name ++ " does not exist.")), "")
  end.

Definition int_param (name : string) (p : table) : option error * Z :=
  match lookup name p with
  | Some v =>
      match NilZero.int_of_string v with
      | Some n => (None, Z.of_int n)
      | None => (Some (Errorf ("invalid syntax: " ++ v)), 0%Z)
      end
  | None => (Some (Errorf ("Parameter " ++ name ++ " does not exist.")), 0%Z)
  end.

Definition expand (path : string) : string * option error :=
  match path with
  | String "~" rest => ("/root" ++ rest, None)
  | String "$" _ => ("", Some (Errorf "no such user"))
  | _ => (path, None)
  end.

Definition exists_ (path : string) (d : list string) : bool :=
  existsb (String.eqb path) d.

Definition cert_config_to_module (prefix : string) (p : table) (bits : Z) : table :=
  let name := prefix ++ ".certificate.bits" in
  (p ++ [(name, NilZero.string_of_int (Z.to_int bits))])%list.

Definition cert_config_from_module (prefix : string) (p : table) : option error * Z :=
  int_param (prefix ++ ".certificate.bits") p.

Definition generate (bits : Z) (cert key : string) (d : list string)
  : option error * list string :=
  if (bits <? 1024)%Z then (Some (Errorf "key too short"), d)
  else (None, key :: cert :: d).

Definition listen_and_serve (srv : Server) : option error :=
  if String.eqb (Addr srv) "10.0.0.1:80"
  then Some (Errorf "listen tcp 10.0.0.1:80: bind: permission denied")
  else Some ErrServerClosed.

Definition listen_and_serve_tls (srv : Server) (cert key : string) (d : list string)
  : option error :=
  if exists_ cert d && exists_ key d then Some ErrServerClosed
  else Some (Errorf "open: no such file or directory").

Definition shutdown (srv : Server) (ctx : Context) : option error :=
  Some (Errorf "context deadline exceeded").

Definition collaborators : Collaborators := {|
  Params := table;
  NoParams := [];
  AddParam_ := add_param;
  StringParam_ := string_param;
  IntParam_ := int_param;
  ParamIfaceAddress := "192.168.1.10";
  IPv4Validator := "ipv4";
  StopWhileIdle := Some (Errorf "module is already stopped");
  Disk := list string;
  Expand_ := expand;
  Exists_ := exists_;
  CertConfig := Z;
  DefaultLegitConfig := 4096%Z;
  CertConfigToModule := cert_config_to_module;
  CertConfigFromModule_ := cert_config_from_module;
  Generate_ := generate;
  Green := fun s => s;
  Bold := fun s => s;
  ListenAndServe_ := listen_and_serve;
  ListenAndServeTLS_ := listen_and_serve_tls;
  Shutdown_ := shutdown
|}.

#[local] Existing Instance collaborators.

(** The operator's [set name value]: the newest binding is read first. *)
Definition set_param (name value : string) (w : @World collaborators) : @World collaborators :=
  let h := httpd w in
  let m := module h in
  with_httpd (mkHttpServer
                (mkSessionModule (Name_ m) (Started m) ((name, value) :: params m) (handlers m))
                (server h) (certFile h) (keyFile h)) w.

(** A parameter missing from the table. *)
Fixpoint drop (name : string) (p : table) : table :=
  match p with
  | [] => []
  | (k, v) :: rest => if String.eqb k name then drop name rest else (k, v) :: drop name rest
  end.

Definition unset_param (name : string) (w : @World collaborators) : @World collaborators :=
  let h := httpd w in
  let m := module h in
  with_httpd (mkHttpServer
                (mkSessionModule (Name_ m) (Started m) (drop name (params m)) (handlers m))
                (server h) (certFile h) (keyFile h)) w.

(** A new module on an empty disk, as the first object of the process. *)
Definition fresh_module : @World collaborators := NewHttpServer (X := collaborators) [] 0.

(** The same with both certificate paths set, and with the files present. *)
Definition https_module : @World collaborators :=
  set_param "http.server.key" "~/srv.key"
    (set_param "http.server.certificate" "~/srv.pem" fresh_module).

Definition https_module_with_files : @World collaborators :=
  with_disk (["/root/srv.pem"; "/root/srv.key"] : @Disk collaborators) https_module.

(** A module whose address parameter cannot be read. *)
Definition no_address : @World collaborators :=
  unset_param "http.server.address" fresh_module.

(** A running module: [fresh_module] after a successful [Start]. *)
Definition running_module : @World collaborators := snd (Start fresh_module).

(** A running module bound to an address it may not listen on. *)
Definition refused_module : @World collaborators :=
  snd (Start (set_param "http.server.address" "10.0.0.1" fresh_module)).

(** Only the certificate path set. *)
Definition cert_only_module : @World collaborators :=
  set_param "http.server.certificate" "~/srv.pem" fresh_module.

(** A port outside the TCP range. *)
Definition port_70000_module : @World collaborators :=
  set_param "http.server.port" "70000" fresh_module.

End Demo.
(** * Properties *)

Section Properties.

Context {X : Collaborators}.

Implicit Types (w : World) (e : error).

(** Unfolds the monad and the primitive operations. *)
Ltac unfold_go :=
  unfold Start, Stop, SetRunning, Configure, resolve, provision, Generate,
    CertConfigFromModule, Exists, Expand, IntParam, StringParam, Running,
    start_worker, stop_callback, run_callback, spawn, access_log, index,
    log, emit, defer, check, bind, ret, fail, panic, reads, writes in *.

(** Case analysis on the innermost answer the goal is stuck on. *)
Ltac atomic x :=
  lazymatch x with
  | context [match _ with _ => _ end] => fail
  | _ => idtac
  end.

Ltac next_answer :=
  match goal with
  | |- context [match ?x with _ => _ end] => atomic x; destruct x eqn:?
  end.

Ltac answers := repeat (cbn in *; try next_answer).

Lemma error_eqb_eq (a b : error) : error_eqb a b = true <-> a = b.
Proof.
  destruct a, b; cbn; split; intro H;
    try reflexivity; try discriminate; try congruence.
  - apply String.eqb_eq in H. now subst.
  - inversion H. apply String.eqb_refl.
Qed.

Lemma nonempty_true (s : string) : nonempty s = true <-> s <> "".
Proof.
  unfold nonempty. rewrite negb_true_iff. split.
  - intros H E. apply String.eqb_eq in E. congruence.
  - intro H. apply String.eqb_neq. exact H.
Qed.

Lemma generations_app (t u : list event) :
  generations (t ++ u) = (generations t ++ generations u)%list.
Proof.
  induction t as [|ev t IH]; [reflexivity|].
  destruct ev; cbn; rewrite ?IH; reflexivity.
Qed.

(** Resolution reads; it writes nothing. *)
Lemma resolve_frame w : snd (resolve w) = w.
Proof.
  unfold_go. answers; reflexivity.
Qed.

(** On an idle module whose parameters resolve, [Configure] is the
    provisioning block followed by the two stores, run on the bound world. *)
Lemma Configure_resolved w path address port cert key :
  Started (module (httpd w)) = false ->
  fst (resolve w) = Ok (path, address, port, cert, key) ->
  Configure w =
    bind (provision cert key)
         (fun _ => bind (writes (with_certFile cert))
                        (fun _ => writes (with_keyFile key)))
         (bound path address port w).
Proof.
  intros Hidle Hres. destruct w as [[[n st p hs] srv c k] d t g o].
  cbn in Hidle. subst st. revert Hres. unfold_go. cbn.
  destruct (StringParam_ "http.server.path" p) as [[e|] v1]; cbn; [discriminate|].
  destruct (StringParam_ "http.server.address" p) as [[e|] v2]; cbn; [discriminate|].
  destruct (IntParam_ "http.server.port" p) as [[e|] v3]; cbn; [discriminate|].
  destruct (StringParam_ "http.server.certificate" p) as [[e|] v4]; cbn; [discriminate|].
  destruct (Expand_ v4) as [v5 [e|]]; cbn; [discriminate|].
  destruct (StringParam_ "http.server.key" p) as [[e|] v6]; cbn; [discriminate|].
  destruct (Expand_ v6) as [v7 [e|]]; cbn; [discriminate|].
  intro H. inversion H. subst. unfold bound. cbn.
  repeat next_answer; cbn; reflexivity.
Qed.

(** The provisioning block when a file is missing: the profile is read,
    the three lines are logged, and the pair is generated at the two paths. *)
Lemma provision_missing w cert key :
  cert <> "" -> key <> "" ->
  Exists_ cert (disk w) = false \/ Exists_ key (disk w) = false ->
  provision cert key w =
    match CertConfigFromModule_ "http.server" (params (module (httpd w))) with
    | (Some e, _) => (Err e, w)
    | (None, cfg) =>
        let t := (trace w ++
                  [EvLog Debug "%+v" [ACfg cfg];
                   EvLog Info "Generating server TLS key to %s" [AStr key];
                   EvLog Info "Generating server TLS certificate to %s" [AStr cert];
                   EvGenerate cfg cert key])%list in
        let w1 := mkWorld (httpd w) (snd (Generate_ cfg cert key (disk w))) t
                          (goroutines w) (objects w) in
        match fst (Generate_ cfg cert key (disk w)) with
        | Some e => (Err e, w1)
        | None => (Ok tt, w1)
        end
    end.
Proof.
  intros Hc Hk Hmiss.
  apply nonempty_true in Hc. apply nonempty_true in Hk.
  unfold_go. rewrite Hc, Hk. cbn.
  assert (Hm : (if negb (Exists_ cert (disk w))
                then (Ok true, w)
                else (Ok (negb (Exists_ key (disk w))), w)) = (Ok true, w)).
  { destruct Hmiss as [H|H]; rewrite H; cbn; [reflexivity|].
    destruct (Exists_ cert (disk w)); reflexivity. }
  destruct (Exists_ cert (disk w)); cbn in *.
  - injection Hm as Hm. rewrite Hm. cbn.
    destruct (CertConfigFromModule_ _ _) as [[e|] cfg]; cbn; [reflexivity|].
    rewrite <- !app_assoc. cbn.
    destruct (Generate_ cfg cert key (disk w)) as [[e|] d']; reflexivity.
  - destruct (CertConfigFromModule_ _ _) as [[e|] cfg]; cbn; [reflexivity|].
    rewrite <- !app_assoc. cbn.
    destruct (Generate_ cfg cert key (disk w)) as [[e|] d']; reflexivity.
Qed.

(** The provisioning block when both files are there: two lines are logged. *)
Lemma provision_present w cert key :
  cert <> "" -> key <> "" ->
  Exists_ cert (disk w) = true -> Exists_ key (disk w) = true ->
  provision cert key w =
    (Ok tt,
     mkWorld (httpd w) (disk w)
             (trace w ++
              [EvLog Info "loading server TLS key from %s" [AStr key];
               EvLog Info "loading server TLS certificate from %s" [AStr cert]])
             (goroutines w) (objects w)).
Proof.
  intros Hc Hk Ec Ek.
  apply nonempty_true in Hc. apply nonempty_true in Hk.
  unfold_go. rewrite Hc, Hk. cbn. rewrite Ec. cbn. rewrite Ek. cbn.
  rewrite <- app_assoc. reflexivity.
Qed.

(** C1. Certificate provisioning inside [Configure], for an idle module whose
    parameters resolve to the paths [cert] and [key]: with both paths empty
    nothing is logged, generated or written to the disk; with both paths
    set and a file missing, the pair is generated once, at exactly
    [cert] and [key], with the profile read from the module, and a failure
    to read the profile or to generate is the error [Configure] returns;
    with both paths set and both files there, the disk is left as it was
    and nothing is generated. *)
Theorem C1_certificate_provisioning w path address port cert key :
  Started (module (httpd w)) = false ->
  fst (resolve w) = Ok (path, address, port, cert, key) ->
  let r := fst (Configure w) in
  let w' := snd (Configure w) in
  (cert = "" -> key = "" ->
     r = Ok tt /\ disk w' = disk w /\ trace w' = trace w)
  /\
  (cert <> "" -> key <> "" ->
   Exists_ cert (disk w) = false \/ Exists_ key (disk w) = false ->
     match CertConfigFromModule_ "http.server" (params (module (httpd w))) with
     | (Some e, _) =>
         r = Err e /\ disk w' = disk w /\ trace w' = trace w
     | (None, cfg) =>
         generations (trace w') = (generations (trace w) ++ [(cfg, cert, key)])%list /\
         disk w' = snd (Generate_ cfg cert key (disk w)) /\
         r = match fst (Generate_ cfg cert key (disk w)) with
             | Some e => Err e
             | None => Ok tt
             end
     end)
  /\
  (cert <> "" -> key <> "" ->
   Exists_ cert (disk w) = true -> Exists_ key (disk w) = true ->
     r = Ok tt /\ disk w' = disk w /\
     generations (trace w') = generations (trace w)).
Proof.
  intros Hidle Hres r w'. subst r w'.
  rewrite (Configure_resolved _ Hidle Hres).
  set (w0 := bound path address port w).
  assert (Hd : disk w0 = disk w) by reflexivity.
  assert (Ht : trace w0 = trace w) by reflexivity.
  assert (Hp : params (module (httpd w0)) = params (module (httpd w))) by reflexivity.
  clearbody w0. unfold bind.
  split; [|split].
  - intros -> ->. cbn. auto.
  - intros Hc Hk Hmiss. rewrite <- Hd in Hmiss.
    rewrite (provision_missing _ Hc Hk Hmiss), Hp, Hd.
    destruct (CertConfigFromModule_ _ _) as [[e|] cfg]; cbn; [auto|].
    destruct (Generate_ cfg cert key (disk w)) as [[e|] d']; cbn;
      rewrite generations_app, Ht; cbn; auto.
  - intros Hc Hk Ec Ek. rewrite <- Hd in Ec, Ek.
    rewrite (provision_present _ Hc Hk Ec Ek). cbn.
    rewrite generations_app, Ht, Hd, app_nil_r. auto.
Qed.

(** C3. On a running module [Configure] and [Start] both return the
    already-started error and leave the whole world, hence the server's
    address, port and handler and the two stored paths, as it was. *)
Theorem C3_start_while_running w :
  Started (module (httpd w)) = true ->
  Configure w = (Err ErrAlreadyStarted, w) /\
  Start w = (Err ErrAlreadyStarted, w).
Proof.
  intro Hrun. unfold_go. rewrite Hrun. cbn. split; reflexivity.
Qed.

(** [Configure] starts no goroutine. *)
Lemma Configure_goroutines w : goroutines (snd (Configure w)) = goroutines w.
Proof.
  destruct w as [[[n st p hs] srv c k] d t g o].
  unfold_go. answers; reflexivity.
Qed.

(** C2. TLS mode is exactly "both stored paths are non-empty"; a successful
    [Start] hands the serving closure to a goroutine, and that closure
    calls the TLS entry point with the two stored paths when TLS mode is
    on and the plain entry point otherwise, once. *)
Theorem C2_tls_mode (h : HttpServer) w :
  (isTLS h = true <-> certFile h <> "" /\ keyFile h <> "")
  /\
  (forall w', Start w = (Ok tt, w') ->
     goroutines w' = (goroutines w ++ [StartWorker])%list)
  /\
  trace (snd (run_callback StartWorker w)) =
    (trace w ++
     if isTLS (httpd w)
     then [EvLog Info "HTTPS server starting on https://%s" [AStr (Addr (server (httpd w)))];
           EvListenAndServeTLS (server (httpd w)) (certFile (httpd w)) (keyFile (httpd w))]
     else [EvLog Info "HTTP server starting on http://%s" [AStr (Addr (server (httpd w)))];
           EvListenAndServe (server (httpd w))])%list.
Proof.
  split; [|split].
  - unfold isTLS. rewrite andb_true_iff, !nonempty_true. tauto.
  - intros w' HS. pose proof (Configure_goroutines w) as Hg.
    unfold Start, bind in HS. destruct (Configure w) as [[[]|e|e] w1];
      try discriminate. cbn in Hg.
    unfold_go. cbn in HS.
    destruct (Started (module (httpd w1))); cbn in HS; [discriminate|].
    injection HS as <-. cbn. now rewrite Hg.
  - unfold_go. cbn. destruct (isTLS (httpd w)); cbn.
    + destruct (ListenAndServeTLS_ _ _ _ _) as [e|]; cbn;
        [destruct (error_eqb e ErrServerClosed)|]; cbn;
        rewrite <- app_assoc; reflexivity.
    + destruct (ListenAndServe_ _) as [e|]; cbn;
        [destruct (error_eqb e ErrServerClosed)|]; cbn;
        rewrite <- app_assoc; reflexivity.
Qed.

(** C5. Whatever the blocking serve call returns to the serving closure:
    the server-closed error of a requested shutdown is swallowed and the
    closure ends normally; any other error makes the closure panic with
    that very error. *)
Theorem C5_listen_errors w :
  let h := httpd w in
  let err := if isTLS h
             then ListenAndServeTLS_ (server h) (certFile h) (keyFile h) (disk w)
             else ListenAndServe_ (server h) in
  (err = Some ErrServerClosed -> fst (start_worker w) = Ok tt)
  /\
  (forall e, err = Some e -> e <> ErrServerClosed -> fst (start_worker w) = Panic e)
  /\
  (err = None -> fst (start_worker w) = Ok tt).
Proof.
  cbn zeta. unfold_go. cbn.
  destruct (isTLS (httpd w)); cbn;
    (split; [|split]; [intros -> | intros e -> Hne | intros ->]; cbn;
     try reflexivity;
     destruct (error_eqb e ErrServerClosed) eqn:E; cbn; [|reflexivity];
     apply error_eqb_eq in E; contradiction).
Qed.

(** C6. [Stop] on a running module succeeds, clears the running flag, asks
    the server for a graceful shutdown under a context whose timeout is 60
    seconds (in nanoseconds), cancels that context once the shutdown call
    is over, and does nothing else: no other call on the server, no other
    change to the world. *)
Theorem C6_stop_graceful w :
  Started (module (httpd w)) = true ->
  let ctx := WithTimeout Background 60000000000 in
  Stop w =
    (Ok tt,
     mkWorld (httpd (with_Started false w)) (disk w)
             (trace w ++ [EvShutdown (server (httpd w)) ctx; EvCancel ctx])
             (goroutines w) (objects w)).
Proof.
  intros Hrun ctx. unfold_go. rewrite Hrun. cbn.
  rewrite <- app_assoc. reflexivity.
Qed.

(** C10. [Stop] returns an error only on a module that is not running, the
    error being the rejection of the transition, with nothing changed; on a
    running module it succeeds even when the shutdown call itself returns an
    error, which is dropped. *)
Theorem C10_stop_errors w e :
  (fst (Stop w) = Err e ->
     Started (module (httpd w)) = false /\ StopWhileIdle = Some e /\ snd (Stop w) = w)
  /\
  (Started (module (httpd w)) = true ->
   Shutdown_ (server (httpd w)) (WithTimeout Background (60 * Second)) = Some e ->
     fst (Stop w) = Ok tt).
Proof.
  unfold_go. split.
  - destruct (Started (module (httpd w))); cbn; [discriminate|].
    destruct StopWhileIdle as [e'|]; cbn; [|discriminate].
    intro H. injection H as ->. auto.
  - intros -> _. reflexivity.
Qed.

(** C9. When [Configure] returns an error the two stored paths are what
    they were; when it succeeds they are the two resolved paths, stored
    together by its last two statements. *)
Theorem C9_paths_stored_last w :
  let w' := snd (Configure w) in
  (forall e, fst (Configure w) = Err e ->
     certFile (httpd w') = certFile (httpd w) /\ keyFile (httpd w') = keyFile (httpd w))
  /\
  (fst (Configure w) = Ok tt ->
     exists path address port,
       fst (resolve w) = Ok (path, address, port, certFile (httpd w'), keyFile (httpd w'))).
Proof.
  destruct w as [[[n st p hs] srv c k] d t g o]. cbn zeta. unfold_go. cbn.
  destruct st; cbn; [split; [auto|discriminate]|].
  destruct (StringParam_ "http.server.path" p) as [[e1|] v1]; cbn;
    [split; [auto|discriminate]|].
  destruct (StringParam_ "http.server.address" p) as [[e2|] v2]; cbn;
    [split; [auto|discriminate]|].
  destruct (IntParam_ "http.server.port" p) as [[e3|] v3]; cbn;
    [split; [auto|discriminate]|].
  destruct (StringParam_ "http.server.certificate" p) as [[e4|] v4]; cbn;
    [split; [auto|discriminate]|].
  destruct (Expand_ v4) as [v5 [e5|]]; cbn; [split; [auto|discriminate]|].
  destruct (StringParam_ "http.server.key" p) as [[e6|] v6]; cbn;
    [split; [auto|discriminate]|].
  destruct (Expand_ v6) as [v7 [e7|]]; cbn; [split; [auto|discriminate]|].
  repeat (next_answer; cbn);
    (split; [intros; try discriminate; auto | intros; try discriminate; eauto]).
Qed.

(** C4 (amended). When a parameter cannot be read or a path cannot be
    expanded, an idle [Configure] returns that error at once, and the world
    it leaves differs from the one it found at most in the server's handler
    and address: nothing is changed if the root path was not read; the
    handler for the root path is installed if the address or the port was
    not read; handler and address are both installed if a certificate or key
    path was not resolved.  The running flag, the parameters, the two
    stored paths, the disk and the trace are as they were. *)
Theorem C4_bad_parameter_frame w e :
  Started (module (httpd w)) = false ->
  fst (resolve w) = Err e ->
  let p := params (module (httpd w)) in
  fst (Configure w) = Err e /\
  snd (Configure w) =
    match StringParam_ "http.server.path" p with
    | (Some _, _) => w
    | (None, path) =>
        match StringParam_ "http.server.address" p, IntParam_ "http.server.port" p with
        | (None, address), (None, port) => bound path address port w
        | _, _ => with_Handler (router_for path) w
        end
    end.
Proof.
  destruct w as [[[n st p hs] srv c k] d t g o]. cbn.
  intros ->. unfold_go. cbn.
  destruct (StringParam_ "http.server.path" p) as [[e1|] v1]; cbn;
    [intro H; injection H as ->; auto|].
  destruct (StringParam_ "http.server.address" p) as [[e2|] v2]; cbn;
    [intro H; injection H as ->; auto|].
  destruct (IntParam_ "http.server.port" p) as [[e3|] v3]; cbn;
    [intro H; injection H as ->; auto|].
  destruct (StringParam_ "http.server.certificate" p) as [[e4|] v4]; cbn;
    [intro H; injection H as ->; auto|].
  destruct (Expand_ v4) as [v5 [e5|]]; cbn; [intro H; injection H as ->; auto|].
  destruct (StringParam_ "http.server.key" p) as [[e6|] v6]; cbn;
    [intro H; injection H as ->; auto|].
  destruct (Expand_ v6) as [v7 [e7|]]; cbn; [intro H; injection H as ->; auto|].
  discriminate.
Qed.

(** [Split] never yields the empty list, and its first piece is the part of
    the string before the first separator. *)
Lemma Split_head (s : string) :
  exists pieces, Split s ":" = before_colon s :: pieces.
Proof.
  induction s as [|c s [pieces IH]]; cbn; [eauto|].
  destruct (Ascii.eqb c ":"); [eauto|]. rewrite IH. eauto.
Qed.

(** The request closure: one log line, then the file server, on the same
    writer and request; the client field is the remote address cut at its
    first colon. *)
Lemma access_log_events (fileServer : Handler) (rw : ResponseWriter) (r : Request) w :
  access_log fileServer rw r w =
    (Ok tt,
     mkWorld (httpd w) (disk w)
             (trace w ++
              [EvLog Info "(%s) %s %s %s%s"
                     [AStr (Green "httpd"); AStr (Bold (before_colon (RemoteAddr r)));
                      AStr (Method r); AStr (Host r); AStr (URL_Path r)];
               EvServeHTTP fileServer rw r])
             (goroutines w) (objects w)).
Proof.
  unfold_go. destruct (Split_head (RemoteAddr r)) as [pieces ->]. cbn.
  rewrite <- app_assoc. reflexivity.
Qed.

(** C7. For a client connecting over IPv6 the remote address is
    [[::1]:51234]: the client field of the access-log line is then the
    opening bracket alone, not the host [::1] with the port removed.  The
    rest holds: one line, logged before the request is handed unchanged to
    the file server. *)
Theorem C7_access_log_ipv6_client (fileServer : Handler) (rw : ResponseWriter) w :
  let r := mkRequest "[::1]:51234" "GET" "example.org" "/index.html" in
  access_log fileServer rw r w =
    (Ok tt,
     mkWorld (httpd w) (disk w)
             (trace w ++
              [EvLog Info "(%s) %s %s %s%s"
                     [AStr (Green "httpd"); AStr (Bold "["); AStr "GET";
                      AStr "example.org"; AStr "/index.html"];
               EvServeHTTP fileServer rw r])
             (goroutines w) (objects w)).
Proof.
  intro r. rewrite access_log_events. reflexivity.
Qed.

Lemma served_app (t u : list event) :
  served (t ++ u) = (served t ++ served u)%list.
Proof.
  induction t as [|ev t IH]; [reflexivity|].
  destruct ev; cbn; rewrite ?IH; reflexivity.
Qed.

Ltac served_simpl :=
  cbn; repeat (rewrite !served_app; cbn); rewrite ?app_nil_r.






(** ** Further properties of the module's code *)

(** The provisioning block touches neither the module nor the scheduler. *)
Lemma provision_httpd cert key w :
  httpd (snd (provision cert key w)) = httpd w /\
  goroutines (snd (provision cert key w)) = goroutines w /\
  objects (snd (provision cert key w)) = objects w.
Proof.
  destruct w as [h d t g o]. unfold_go. answers; auto.
Qed.

(** With a path left empty there is nothing to provision. *)
Lemma provision_skipped cert key w :
  cert = "" \/ key = "" -> provision cert key w = (Ok tt, w).
Proof.
  intros [-> | ->]; unfold provision; cbn; [reflexivity|].
  rewrite andb_false_r. reflexivity.
Qed.

(** X1. When the certificate path or the key path resolves to the empty
    string, even with the other one set, an idle [Configure] succeeds
    without looking at the disk, logging or generating; it stores the two
    paths as resolved, TLS mode is off, and the serving closure run on the
    result calls the plain entry point on the newly bound server. *)
Theorem Configure_single_path_plain_http w path address port cert key :
  Started (module (httpd w)) = false ->
  fst (resolve w) = Ok (path, address, port, cert, key) ->
  cert = "" \/ key = "" ->
  let w' := with_keyFile key (with_certFile cert (bound path address port w)) in
  Configure w = (Ok tt, w') /\
  disk w' = disk w /\ trace w' = trace w /\
  isTLS (httpd w') = false /\
  trace (snd (start_worker w')) =
    (trace w ++
     [EvLog Info "HTTP server starting on http://%s" [AStr (Sprintf_addr address port)];
      EvListenAndServe (mkServer (obj (server (httpd w))) (Some (router_for path))
                                 (Sprintf_addr address port))])%list.
Proof.
  intros Hidle Hres Hempty w'.
  assert (Htls : isTLS (httpd w') = false).
  { unfold isTLS. cbn. destruct Hempty as [-> | ->]; cbn;
      [reflexivity | apply andb_false_r]. }
  split; [|split; [reflexivity|split; [reflexivity|split; [exact Htls|]]]].
  - rewrite (Configure_resolved _ Hidle Hres). unfold bind.
    rewrite (provision_skipped _ Hempty). reflexivity.
  - unfold start_worker, bind, reads. rewrite Htls.
    unfold_go. cbn.
    destruct (ListenAndServe_ _) as [e|]; cbn;
      [destruct (error_eqb e ErrServerClosed)|]; cbn;
      rewrite <- app_assoc; reflexivity.
Qed.

(** X2. After an idle [Configure] whose parameters resolve, whether the
    provisioning then succeeds or fails and whatever the port number is (no
    range is checked), the server keeps its identity, its handler is the
    router for the resolved root and its address is the resolved address,
    a colon and the port in decimal; the embedded session module is as it
    was; and the two paths are stored exactly when [Configure] succeeded. *)
Theorem Configure_server_state w path address port cert key :
  Started (module (httpd w)) = false ->
  fst (resolve w) = Ok (path, address, port, cert, key) ->
  let w' := snd (Configure w) in
  server (httpd w') =
    mkServer (obj (server (httpd w))) (Some (router_for path))
             (address ++ ":" ++ itoa port) /\
  module (httpd w') = module (httpd w) /\
  (certFile (httpd w'), keyFile (httpd w')) =
    match fst (Configure w) with
    | Ok _ => (cert, key)
    | _ => (certFile (httpd w), keyFile (httpd w))
    end.
Proof.
  intros Hidle Hres w'. subst w'.
  rewrite (Configure_resolved _ Hidle Hres).
  set (w0 := bound path address port w).
  destruct (provision_httpd cert key w0) as (Hh & _ & _).
  unfold bind. destruct (provision cert key w0) as [[[]|e|e] w1];
    cbn in Hh |- *; rewrite Hh; repeat split.
Qed.

(** X3. [Configure] never panics, and on every outcome leaves alone the
    embedded session module (running flag, parameters, handlers), the
    pending goroutines, the identity of the server object and the count of
    allocated objects. *)
Theorem Configure_frame w :
  let w' := snd (Configure w) in
  (forall e, fst (Configure w) <> Panic e) /\
  module (httpd w') = module (httpd w) /\
  goroutines w' = goroutines w /\
  obj (server (httpd w')) = obj (server (httpd w)) /\
  objects w' = objects w.
Proof.
  destruct w as [[[n st p hs] [ob hd ad] c k] d t g o]. cbn zeta.
  unfold_go. answers; repeat split; intros; try discriminate; auto.
Qed.

(** X4. What [Configure] records is appended to the trace and consists of
    log lines and at most one generation; it makes no serve, shutdown or
    cancel call; and the disk is touched only when a generation is
    recorded. *)
Theorem Configure_effects w :
  let w' := snd (Configure w) in
  exists added,
    trace w' = (trace w ++ added)%list /\
    forallb log_or_generate added = true /\
    length (generations added) <= 1 /\
    (generations added = [] -> disk w' = disk w).
Proof.
  destruct w as [[[n st p hs] [ob hd ad] c k] d t g o]. cbn zeta.
  unfold_go. answers;
    first
      [ solve [exists []; cbn; rewrite app_nil_r; repeat split; auto]
      | solve [eexists; split;
               [ rewrite <- ?app_assoc; cbn; reflexivity
               | cbn; repeat split; auto; discriminate ]] ].
Qed.

(** Shared facts on [Configure]. *)
Lemma Configure_module w :
  module (httpd (snd (Configure w))) = module (httpd w).
Proof.
  destruct w as [[[n st p hs] [ob hd ad] c k] d t g o].
  unfold_go. answers; reflexivity.
Qed.

Lemma Configure_served w :
  served (trace (snd (Configure w))) = served (trace w).
Proof.
  destruct w as [[[n st p hs] [ob hd ad] c k] d t g o].
  unfold_go. answers; served_simpl; reflexivity.
Qed.

Lemma Configure_httpd_ok w path address port cert key :
  Started (module (httpd w)) = false ->
  fst (resolve w) = Ok (path, address, port, cert, key) ->
  fst (Configure w) = Ok tt ->
  httpd (snd (Configure w)) =
    httpd (with_keyFile key (with_certFile cert (bound path address port w))).
Proof.
  intros Hidle Hres. rewrite (Configure_resolved _ Hidle Hres).
  set (w0 := bound path address port w).
  destruct (provision_httpd cert key w0) as (Hh & _ & _).
  unfold bind. destruct (provision cert key w0) as [[[]|e|e] w1];
    cbn in Hh |- *; try discriminate. intros _. rewrite Hh. reflexivity.
Qed.

(** Resolution depends on the parameter table alone. *)
Lemma resolve_params w1 w2 :
  params (module (httpd w1)) = params (module (httpd w2)) ->
  fst (resolve w1) = fst (resolve w2).
Proof.
  destruct w1 as [[[n1 st1 p1 hs1] srv1 c1 k1] d1 t1 g1 o1].
  destruct w2 as [[[n2 st2 p2 hs2] srv2 c2 k2] d2 t2 g2 o2].
  cbn. intros ->. unfold_go. answers; reflexivity.
Qed.

(** X5. When both paths resolve non-empty and an idle [Configure]
    succeeds, TLS mode is on and the serving closure run on the result calls
    the TLS entry point on the newly bound server with exactly the two
    resolved paths; if a file was missing, these are also the paths the pair
    was generated at. *)
Theorem Configure_then_serve_tls w path address port cert key :
  Started (module (httpd w)) = false ->
  fst (resolve w) = Ok (path, address, port, cert, key) ->
  cert <> "" -> key <> "" ->
  fst (Configure w) = Ok tt ->
  let w' := snd (Configure w) in
  isTLS (httpd w') = true /\
  trace (snd (start_worker w')) =
    (trace w' ++
     [EvLog Info "HTTPS server starting on https://%s" [AStr (Sprintf_addr address port)];
      EvListenAndServeTLS
        (mkServer (obj (server (httpd w))) (Some (router_for path))
                  (Sprintf_addr address port)) cert key])%list /\
  (Exists_ cert (disk w) = false \/ Exists_ key (disk w) = false ->
     exists cfg,
       generations (trace w') = (generations (trace w) ++ [(cfg, cert, key)])%list).
Proof.
  intros Hidle Hres Hc Hk Hok w'.
  pose proof (Configure_httpd_ok _ Hidle Hres Hok) as Hh. fold w' in Hh.
  assert (Htls : isTLS (httpd w') = true).
  { rewrite Hh. unfold isTLS. cbn.
    apply nonempty_true in Hc. apply nonempty_true in Hk. now rewrite Hc, Hk. }
  split; [exact Htls|split].
  - unfold start_worker, bind, reads. rewrite Htls. unfold_go. cbn.
    rewrite Hh. cbn.
    destruct (ListenAndServeTLS_ _ _ _ _) as [e|]; cbn;
      [destruct (error_eqb e ErrServerClosed)|]; cbn;
      rewrite <- app_assoc; reflexivity.
  - intro Hmiss. subst w'. revert Hok.
    rewrite (Configure_resolved _ Hidle Hres). unfold bind.
    change (disk w) with (disk (bound path address port w)) in Hmiss.
    rewrite (provision_missing _ Hc Hk Hmiss).
    destruct (CertConfigFromModule_ _ _) as [[e|] cfg]; cbn; [discriminate|].
    destruct (Generate_ cfg cert key (disk w)) as [[e|] d']; cbn; [discriminate|].
    intros _. exists cfg. rewrite generations_app. reflexivity.
Qed.

(** X6. Configuring again changes nothing: after a successful idle
    [Configure], if the two files are on the disk whenever both paths are
    set (as they are once generated), a second [Configure] succeeds,
    generates nothing, leaves the disk alone and leaves the module object
    exactly as the first one left it. *)
Theorem Configure_twice w path address port cert key :
  Started (module (httpd w)) = false ->
  fst (resolve w) = Ok (path, address, port, cert, key) ->
  fst (Configure w) = Ok tt ->
  let w1 := snd (Configure w) in
  (cert <> "" -> key <> "" ->
     Exists_ cert (disk w1) = true /\ Exists_ key (disk w1) = true) ->
  let w2 := snd (Configure w1) in
  fst (Configure w1) = Ok tt /\
  httpd w2 = httpd w1 /\
  disk w2 = disk w1 /\
  generations (trace w2) = generations (trace w1).
Proof.
  intros Hidle Hres Hok w1 Hfiles w2.
  pose proof (Configure_httpd_ok _ Hidle Hres Hok) as Hh. fold w1 in Hh.
  pose proof (Configure_module w) as Hm. fold w1 in Hm.
  assert (Hidle1 : Started (module (httpd w1)) = false) by now rewrite Hm.
  assert (Hres1 : fst (resolve w1) = Ok (path, address, port, cert, key)).
  { rewrite <- Hres. apply resolve_params. now rewrite Hm. }
  assert (Hsame : httpd (with_keyFile key (with_certFile cert (bound path address port w1)))
                  = httpd w1).
  { cbn. rewrite Hh. reflexivity. }
  subst w2. rewrite (Configure_resolved _ Hidle1 Hres1). unfold bind.
  destruct (nonempty cert && nonempty key) eqn:Hne.
  - apply andb_true_iff in Hne. destruct Hne as [Hc Hk].
    apply nonempty_true in Hc. apply nonempty_true in Hk.
    destruct (Hfiles Hc Hk) as [Ec Ek].
    change (disk w1) with (disk (bound path address port w1)) in Ec, Ek.
    rewrite (provision_present _ Hc Hk Ec Ek). cbn.
    rewrite generations_app, app_nil_r. cbn in Hsame. rewrite Hsame. auto.
  - assert (Hempty : cert = "" \/ key = "").
    { apply andb_false_iff in Hne.
      destruct Hne as [H|H]; unfold nonempty in H; apply negb_false_iff in H;
        apply String.eqb_eq in H; auto. }
    rewrite (provision_skipped _ Hempty). cbn. cbn in Hsame. rewrite Hsame. auto.
Qed.

Lemma before_colon_host (host rest : string) :
  no_colon host = true -> before_colon (host ++ String ":" rest) = host.
Proof.
  induction host as [|c host IH]; cbn; [reflexivity|].
  intro H. apply andb_true_iff in H. destruct H as [Hc Hrest].
  apply negb_true_iff in Hc. rewrite Hc, (IH Hrest). reflexivity.
Qed.

Lemma before_colon_whole (s : string) :
  no_colon s = true -> before_colon s = s.
Proof.
  induction s as [|c s IH]; cbn; [reflexivity|].
  intro H. apply andb_true_iff in H. destruct H as [Hc Hrest].
  apply negb_true_iff in Hc. rewrite Hc, (IH Hrest). reflexivity.
Qed.

(** X7. For a remote address of the form host, colon, port whose host has
    no colon (an IPv4 client), the request closure logs exactly the host as
    the client, whatever the port text is; for a remote address without any
    colon it logs the address whole.  In both cases it does not panic and
    hands the same writer and request to the file server after the line. *)
Theorem access_log_host_port (fileServer : Handler) (rw : ResponseWriter)
    (host port method hostHeader path : string) w :
  no_colon host = true ->
  let line client :=
    EvLog Info "(%s) %s %s %s%s"
          [AStr (Green "httpd"); AStr (Bold client); AStr method;
           AStr hostHeader; AStr path] in
  let r := mkRequest (host ++ ":" ++ port) method hostHeader path in
  let r0 := mkRequest host method hostHeader path in
  access_log fileServer rw r w =
    (Ok tt, mkWorld (httpd w) (disk w)
                    (trace w ++ [line host; EvServeHTTP fileServer rw r])
                    (goroutines w) (objects w)) /\
  access_log fileServer rw r0 w =
    (Ok tt, mkWorld (httpd w) (disk w)
                    (trace w ++ [line host; EvServeHTTP fileServer rw r0])
                    (goroutines w) (objects w)).
Proof.
  intros Hhost line r r0. rewrite !access_log_events. subst line r r0. cbn.
  rewrite before_colon_host by exact Hhost.
  rewrite before_colon_whole by exact Hhost. auto.
Qed.

(** X8. The serving closure never clears the running flag: whatever the
    serve call returns, and whether the closure ends normally or panics, the
    module object and the disk are as before, so on a module that was
    running a further [Configure] or [Start] is still rejected as already
    started until [Stop] is called. *)
Theorem worker_leaves_module_running w :
  Started (module (httpd w)) = true ->
  let w' := snd (start_worker w) in
  httpd w' = httpd w /\
  disk w' = disk w /\
  goroutines w' = goroutines w /\
  Configure w' = (Err ErrAlreadyStarted, w') /\
  Start w' = (Err ErrAlreadyStarted, w').
Proof.
  intros Hrun w'.
  assert (H : httpd w' = httpd w /\ disk w' = disk w /\ goroutines w' = goroutines w).
  { subst w'. destruct w as [h d t g o]. unfold_go. answers; auto. }
  destruct H as (Hh & Hd & Hg). repeat split; auto.
  - unfold_go. rewrite Hh, Hrun. reflexivity.
  - unfold_go. rewrite Hh, Hrun. reflexivity.
Qed.

(** X9. When [Configure] fails, [Start] returns that same error and stops
    there: the running flag is as it was, no goroutine is queued and no
    serve call is made. *)
Theorem Start_fails_with_Configure w e :
  fst (Configure w) = Err e ->
  let w' := snd (Start w) in
  fst (Start w) = Err e /\
  w' = snd (Configure w) /\
  Started (module (httpd w')) = Started (module (httpd w)) /\
  goroutines w' = goroutines w /\
  served (trace w') = served (trace w).
Proof.
  intros Hfail w'.
  assert (HS : Start w = (Err e, snd (Configure w))).
  { unfold Start, bind. destruct (Configure w) as [[[]|e'|e'] w1];
      cbn in Hfail; try discriminate. now injection Hfail as ->. }
  subst w'. rewrite HS. cbn [fst snd].
  rewrite Configure_module, Configure_goroutines, Configure_served. auto.
Qed.

(** Events that are not serve calls keep [served_routed]. *)
Lemma served_routed_app (t u : list event) :
  served_routed t -> served_routed u -> served_routed (t ++ u).
Proof.
  intros Ht Hu. apply Forall_app. split; assumption.
Qed.

Ltac quiet_events :=
  repeat (apply served_routed_app; [|repeat constructor; cbn; intros; discriminate]);
  try assumption.

Ltac installed :=
  unfold handler_installed, routed in *; cbn in *;
  repeat match goal with
         | |- _ /\ _ => split
         | |- served_routed _ => quiet_events
         | |- _ <> _ -> _ => first [assumption | intros _; eexists; reflexivity]
         | |- _ \/ _ => first [assumption | right; eexists; reflexivity]
         | |- _ = _ -> _ => first [discriminate | intros _; eexists; reflexivity]
         end.

(** [Configure] keeps [handler_installed], and leaves the server routed
    when it succeeds. *)
Lemma Configure_handler_installed w :
  handler_installed w ->
  handler_installed (snd (Configure w)) /\
  (fst (Configure w) = Ok tt -> routed (server (httpd (snd (Configure w))))).
Proof.
  destruct w as [[[n st p hs] [ob hd ad] c k] d t g o].
  unfold handler_installed. cbn. intros (Hg & Hh & Ht).
  unfold_go. answers; installed.
Qed.

Lemma start_worker_handler_installed w :
  routed (server (httpd w)) -> served_routed (trace w) ->
  handler_installed (snd (start_worker w)).
Proof.
  destruct w as [h d t g o]. cbn. intros Hr Ht.
  unfold_go. answers; unfold handler_installed; cbn;
    (split; [auto|split; [auto|]]);
    repeat (apply served_routed_app;
            [|constructor; [|constructor]; intros srv Hs; cbn in Hs;
              first [discriminate | injection Hs as <-; exact Hr]]);
    exact Ht.
Qed.

Lemma stop_callback_handler_installed w :
  handler_installed w -> handler_installed (snd (stop_callback w)).
Proof.
  destruct w as [h d t g o]. unfold handler_installed. cbn.
  intros (Hg & Hh & Ht). unfold_go. cbn. repeat split; auto. quiet_events.
Qed.

Lemma Start_handler_installed w :
  handler_installed w -> handler_installed (snd (Start w)).
Proof.
  intro H. destruct (Configure_handler_installed H) as [HC Hok].
  unfold Start, bind.
  destruct (Configure w) as [[[]|e|e] w1]; cbn [fst snd] in *; auto.
  specialize (Hok eq_refl). destruct HC as (Hg & Hh & Ht).
  unfold SetRunning, Running, bind, reads, check, fail, ret, writes, spawn.
  destruct (Bool.eqb true (Started (module (httpd w1))));
    [destruct (Started (module (httpd w1))); [|destruct StopWhileIdle]|];
    cbn; repeat split; auto.
Qed.

Lemma Stop_handler_installed w :
  handler_installed w -> handler_installed (snd (Stop w)).
Proof.
  intro H. unfold Stop, SetRunning, Running, bind, reads, check, fail, ret, writes.
  destruct (Bool.eqb false (Started (module (httpd w))));
    [destruct (Started (module (httpd w))); [|destruct StopWhileIdle]; exact H|].
  cbn [fst snd run_callback]. apply stop_callback_handler_installed.
  destruct H as (Hg & Hh & Ht). repeat split; assumption.
Qed.

Lemma run_step_handler_installed s w :
  handler_installed w -> handler_installed (snd (run_step s w)).
Proof.
  intro H. destruct s as [[|]|]; cbn [run_step exec].
  - now apply Start_handler_installed.
  - now apply Stop_handler_installed.
  - destruct (goroutines w) as [|cb rest] eqn:E; [exact H|].
    destruct H as (Hg & Hh & Ht).
    assert (Hr : routed (server (httpd w))) by (apply Hg; rewrite E; discriminate).
    destruct cb; cbn [run_callback].
    + apply start_worker_handler_installed; assumption.
    + apply stop_callback_handler_installed. repeat split; cbn; auto.
Qed.

(** X10. Through every run of starts, stops and goroutine executions from
    a new module, every serve call, plain or TLS, is made on a server whose
    handler is a router installed by [Configure] (one catch-all route to the
    logging closure over a file server), never on a server with no handler;
    and a serving closure is pending only once that router is installed. *)
Theorem run_serves_routed (d : Disk) (n : nat) (steps : list step) :
  handler_installed (run steps (NewHttpServer d n)).
Proof.
  assert (H0 : handler_installed (NewHttpServer d n)).
  { unfold handler_installed. cbn. repeat split; auto; [congruence|constructor]. }
  generalize dependent (NewHttpServer d n). intros w Hw.
  revert w Hw. induction steps as [|s steps IH]; intros w Hw; cbn [run]; [exact Hw|].
  pose proof (run_step_handler_installed s Hw) as Hs.
  destruct (run_step s w) as [[[]|e|e] w1]; cbn [snd] in Hs; auto.
Qed.

Lemma before_colon_no_colon (s : string) : no_colon (before_colon s) = true.
Proof.
  induction s as [|c s IH]; cbn; [reflexivity|].
  destruct (Ascii.eqb c ":") eqn:E; cbn; [reflexivity|].
  rewrite E, IH. reflexivity.
Qed.

Lemma before_colon_prefix (s : string) : String.prefix (before_colon s) s = true.
Proof.
  induction s as [|c s IH]; cbn; [reflexivity|].
  destruct (Ascii.eqb c ":"); cbn; [reflexivity|].
  destruct (ascii_dec c c) as [_|H]; [exact IH|contradiction].
Qed.

(** X11. For every request whatsoever the request closure ends normally
    (the index into the split address is never out of range), records one
    log line and then the hand-over of the same writer and request to the
    file server, and the client it logs is a prefix of the remote address
    that contains no colon. *)
Theorem access_log_client_field (fileServer : Handler) (rw : ResponseWriter)
    (r : Request) w :
  exists client,
    fst (access_log fileServer rw r w) = Ok tt /\
    trace (snd (access_log fileServer rw r w)) =
      (trace w ++
       [EvLog Info "(%s) %s %s %s%s"
              [AStr (Green "httpd"); AStr (Bold client); AStr (Method r);
               AStr (Host r); AStr (URL_Path r)];
        EvServeHTTP fileServer rw r])%list /\
    no_colon client = true /\
    String.prefix client (RemoteAddr r) = true.
Proof.
  exists (before_colon (RemoteAddr r)). rewrite access_log_events. cbn.
  repeat split; [apply before_colon_no_colon | apply before_colon_prefix].
Qed.

End Properties.

(** * The properties on explicit inputs *)

#[local] Existing Instance Demo.collaborators.

(** C1 at work.  Both paths set and no file on the disk: the pair is
    generated at the two expanded paths and [Configure] succeeds.  Both
    files there: the disk is as it was and nothing is generated. *)
Lemma C1_certificate_provisioning_witness :
  (generations (trace (snd (Configure Demo.https_module))) =
     [(4096%Z, "/root/srv.pem", "/root/srv.key")] /\
   disk (snd (Configure Demo.https_module)) = ["/root/srv.key"; "/root/srv.pem"] /\
   fst (Configure Demo.https_module) = Ok tt)
  /\
  (fst (Configure Demo.https_module_with_files) = Ok tt /\
   disk (snd (Configure Demo.https_module_with_files)) = ["/root/srv.pem"; "/root/srv.key"] /\
   generations (trace (snd (Configure Demo.https_module_with_files))) = []).
Proof.
  split.
  - refine (proj1 (proj2
      (C1_certificate_provisioning Demo.https_module
         (path := ".") (address := "192.168.1.10") (port := 80%Z)
         (cert := "/root/srv.pem") (key := "/root/srv.key") _ _)) _ _ _).
    + reflexivity.
    + reflexivity.
    + discriminate.
    + discriminate.
    + left. reflexivity.
  - refine (proj2 (proj2
      (C1_certificate_provisioning Demo.https_module_with_files
         (path := ".") (address := "192.168.1.10") (port := 80%Z)
         (cert := "/root/srv.pem") (key := "/root/srv.key") _ _)) _ _ _ _).
    + reflexivity.
    + reflexivity.
    + discriminate.
    + discriminate.
    + reflexivity.
    + reflexivity.
Defined.

(** C2 at work: starting the new module queues the serving closure. *)
Lemma C2_tls_mode_witness :
  goroutines Demo.running_module = [StartWorker].
Proof.
  refine (proj1 (proj2 (C2_tls_mode (httpd Demo.fresh_module) Demo.fresh_module))
            Demo.running_module _).
  reflexivity.
Defined.

(** C3 at work: starting the running module again. *)
Lemma C3_start_while_running_witness :
  Configure Demo.running_module = (Err ErrAlreadyStarted, Demo.running_module) /\
  Start Demo.running_module = (Err ErrAlreadyStarted, Demo.running_module).
Proof.
  apply (C3_start_while_running Demo.running_module). reflexivity.
Defined.

(** C4 as stated fails: with the address parameter missing, [Configure]
    returns the parameter error, yet the server's handler, unset before the
    call, is set after it. *)
Lemma C4_counterexample :
  Started (module (httpd Demo.no_address)) = false /\
  fst (resolve Demo.no_address) =
    Err (Errorf "Parameter http.server.address does not exist.") /\
  fst (Configure Demo.no_address) =
    Err (Errorf "Parameter http.server.address does not exist.") /\
  Handler_ (server (httpd Demo.no_address)) = None /\
  Handler_ (server (httpd (snd (Configure Demo.no_address)))) = Some (router_for ".").
Proof.
  repeat split; reflexivity.
Qed.

(** C4 (amended) at work on the same input. *)
Lemma C4_bad_parameter_frame_witness :
  fst (Configure Demo.no_address) =
    Err (Errorf "Parameter http.server.address does not exist.") /\
  snd (Configure Demo.no_address) = with_Handler (router_for ".") Demo.no_address.
Proof.
  apply (C4_bad_parameter_frame Demo.no_address
           (e := Errorf "Parameter http.server.address does not exist.")).
  - reflexivity.
  - reflexivity.
Defined.

(** C5 at work: a bind error on the configured address makes the serving
    closure panic. *)
Lemma C5_listen_errors_witness :
  fst (start_worker Demo.refused_module) =
    Panic (Errorf "listen tcp 10.0.0.1:80: bind: permission denied").
Proof.
  refine (proj1 (proj2 (C5_listen_errors Demo.refused_module)) _ _ _).
  - reflexivity.
  - discriminate.
Defined.

(** C6 at work: stopping the running module. *)
Lemma C6_stop_graceful_witness :
  fst (Stop Demo.running_module) = Ok tt /\
  Started (module (httpd (snd (Stop Demo.running_module)))) = false /\
  trace (snd (Stop Demo.running_module)) =
    [EvShutdown (server (httpd Demo.running_module)) (WithTimeout Background (60 * Second));
     EvCancel (WithTimeout Background (60 * Second))].
Proof.
  pose proof (C6_stop_graceful Demo.running_module eq_refl) as H.
  cbn zeta in H. rewrite H. repeat split.
Defined.


(** C9 at work: a failed [Configure] against stored paths, and a successful
    one storing the resolved pair. *)
Lemma C9_paths_stored_last_witness :
  (certFile (httpd (snd (Configure Demo.no_address))) = "" /\
   keyFile (httpd (snd (Configure Demo.no_address))) = "") /\
  exists path address port,
    fst (resolve Demo.https_module) =
      Ok (path, address, port, "/root/srv.pem", "/root/srv.key").
Proof.
  split.
  - apply (proj1 (C9_paths_stored_last Demo.no_address)
             (Errorf "Parameter http.server.address does not exist.")).
    reflexivity.
  - apply (proj2 (C9_paths_stored_last Demo.https_module)). reflexivity.
Defined.

(** C10 at work: stopping an idle module is rejected; stopping a running
    one succeeds although its shutdown call reports an expired deadline. *)
Lemma C10_stop_errors_witness :
  (Started (module (httpd Demo.fresh_module)) = false /\
   StopWhileIdle = Some (Errorf "module is already stopped") /\
   snd (Stop Demo.fresh_module) = Demo.fresh_module) /\
  fst (Stop Demo.running_module) = Ok tt.
Proof.
  split.
  - apply (proj1 (C10_stop_errors Demo.fresh_module (Errorf "module is already stopped"))).
    reflexivity.
  - apply (proj2 (C10_stop_errors Demo.running_module (Errorf "context deadline exceeded"))).
    + reflexivity.
    + reflexivity.
Defined.

(** * The further properties on explicit inputs *)

(** X1 at work: a certificate path without a key path gives plain HTTP. *)
Lemma Configure_single_path_plain_http_witness :
  fst (Configure Demo.cert_only_module) = Ok tt /\
  certFile (httpd (snd (Configure Demo.cert_only_module))) = "/root/srv.pem" /\
  isTLS (httpd (snd (Configure Demo.cert_only_module))) = false /\
  served (trace (snd (start_worker (snd (Configure Demo.cert_only_module))))) = [0].
Proof.
  destruct (Configure_single_path_plain_http Demo.cert_only_module
              (path := ".") (address := "192.168.1.10") (port := 80%Z)
              (cert := "/root/srv.pem") (key := "") eq_refl eq_refl
              (or_intror eq_refl)) as (HC & _ & _ & Htls & Htr).
  rewrite HC. cbn [fst snd]. rewrite Htr. repeat split.
Defined.

(** X2 at work: port 70000 is bound as given. *)
Lemma Configure_server_state_witness :
  server (httpd (snd (Configure Demo.port_70000_module))) =
    mkServer 0 (Some (router_for ".")) "192.168.1.10:70000".
Proof.
  exact (proj1 (Configure_server_state Demo.port_70000_module
                  (path := ".") (address := "192.168.1.10") (port := 70000%Z)
                  (cert := "") (key := "") eq_refl eq_refl)).
Defined.

(** X5 at work: the generated pair is the pair served. *)
Lemma Configure_then_serve_tls_witness :
  isTLS (httpd (snd (Configure Demo.https_module))) = true /\
  exists cfg,
    generations (trace (snd (Configure Demo.https_module))) =
      [(cfg, "/root/srv.pem", "/root/srv.key")].
Proof.
  destruct (Configure_then_serve_tls Demo.https_module
              (path := ".") (address := "192.168.1.10") (port := 80%Z)
              (cert := "/root/srv.pem") (key := "/root/srv.key") eq_refl eq_refl)
    as (Htls & _ & Hgen).
  - discriminate.
  - discriminate.
  - reflexivity.
  - split; [exact Htls|]. apply Hgen. left. reflexivity.
Defined.

(** X6 at work: configuring the HTTPS module a second time. *)
Lemma Configure_twice_witness :
  fst (Configure (snd (Configure Demo.https_module))) = Ok tt /\
  disk (snd (Configure (snd (Configure Demo.https_module)))) =
    ["/root/srv.key"; "/root/srv.pem"] /\
  generations (trace (snd (Configure (snd (Configure Demo.https_module))))) =
    [(4096%Z, "/root/srv.pem", "/root/srv.key")].
Proof.
  destruct (Configure_twice Demo.https_module
              (path := ".") (address := "192.168.1.10") (port := 80%Z)
              (cert := "/root/srv.pem") (key := "/root/srv.key") eq_refl eq_refl eq_refl)
    as (Hok & _ & Hd & Hg).
  - intros _ _. split; reflexivity.
  - rewrite Hok, Hd, Hg. repeat split.
Defined.

(** X7 at work: an IPv4 client. *)
Lemma access_log_host_port_witness :
  trace (snd (access_log (FileServer ".") 7
                (mkRequest "192.168.1.7:51234" "GET" "example.org" "/index.html")
                Demo.fresh_module)) =
    [EvLog Info "(%s) %s %s %s%s"
           [AStr "httpd"; AStr "192.168.1.7"; AStr "GET"; AStr "example.org";
            AStr "/index.html"];
     EvServeHTTP (FileServer ".") 7
                 (mkRequest "192.168.1.7:51234" "GET" "example.org" "/index.html")].
Proof.
  pose proof (proj1 (access_log_host_port (FileServer ".") 7
                       "192.168.1.7" "51234" "GET" "example.org"
                       "/index.html" Demo.fresh_module eq_refl)) as H.
  exact (f_equal (fun x => trace (snd x)) H).
Defined.

(** X8 at work: after the listener of the running module has ended. *)
Lemma worker_leaves_module_running_witness :
  fst (start_worker Demo.running_module) = Ok tt /\
  fst (Start (snd (start_worker Demo.running_module))) = Err ErrAlreadyStarted.
Proof.
  split; [reflexivity|].
  destruct (worker_leaves_module_running Demo.running_module eq_refl)
    as (_ & _ & _ & _ & HS).
  rewrite HS. reflexivity.
Defined.

(** X9 at work: starting the module whose address cannot be read. *)
Lemma Start_fails_with_Configure_witness :
  fst (Start Demo.no_address) =
    Err (Errorf "Parameter http.server.address does not exist.") /\
  Started (module (httpd (snd (Start Demo.no_address)))) = false /\
  goroutines (snd (Start Demo.no_address)) = [].
Proof.
  destruct (Start_fails_with_Configure Demo.no_address
              (e := Errorf "Parameter http.server.address does not exist.") eq_refl)
    as (HS & _ & Hst & Hg & _).
  split; [exact HS | split; [exact Hst | exact Hg]].
Defined.
